(** * Terminus health indicators: result builder and TypeORM ping check

    Shallow embedding of
      - src/lib/health-indicator/health-indicator.service.ts
      - src/lib/health-indicator/database/typeorm.health.ts

    JavaScript objects used as string-keyed records are finite maps
    ([gmap string _]); object spread is a right-biased merge; promises are
    timed outcomes; exceptions are an explicit result type. *)

From stdpp Require Import gmap strings list fin_maps pretty.

Open Scope string_scope.

(** ** JavaScript values *)

(** Numbers that occur as millisecond budgets: integral values (of the
    magnitudes a timer can take), the two zeros and NaN.  [Int 0] is +0.
    Fractional budgets are left out. *)
Inductive number :=
| NaN
| NegZero
| Int (z : Z).

(** ToBoolean on numbers: +0, -0 and NaN are the falsy ones. *)
Definition number_truthy (n : number) : bool :=
  match n with
  | NaN | NegZero => false
  | Int z => negb (Z.eqb z 0)
  end.

(** Number::toString, as used by template literals: an integer below
    10^21 in magnitude prints as its decimal numeral, with a leading "-"
    when negative. *)
Definition number_toString (n : number) : string :=
  match n with
  | NaN => "NaN"
  | NegZero => "0"
  | Int z => pretty z
  end.

#[local] Set Warnings "-register-all".
Inductive value :=
| VUndefined
| VNull
| VBoolean (b : bool)
| VNumber (n : number)
| VString (s : string)
| VObject (fields : list (string * value)).

(** ** health-indicator.service.ts *)

Module HealthIndicatorService.

(** [type AdditionalData = Record<string, any>] *)
Abbreviation AdditionalData := (gmap string value).

(** The detail object and the keyed result record,
    [Record<Key, typeof detail>]. *)
Abbreviation Detail := (gmap string value).
Abbreviation HealthIndicatorResult := (gmap string (gmap string value)).

(** The optional [data?: T] argument, [T extends AdditionalData | string]. *)
Inductive Data :=
| Omitted
| Str (s : string)
| Obj (o : AdditionalData).

(** [{ ...base, ...src }]: own properties of [src] are copied over what
    the literal already holds, so on a common key [src] prevails. *)
Definition spread (base src : gmap string value) : gmap string value :=
  src ∪ base.

(** [class HealthIndicatorSession], holding [private readonly key]. *)
Record HealthIndicatorSession := { key : string }.

Definition check (key : string) : HealthIndicatorSession := {| key := key |}.

Definition down (this : HealthIndicatorSession) (data : Data)
  : HealthIndicatorResult :=
  let additionalData : AdditionalData :=
    match data with
    | Str s => {[ "message" := VString s ]}
    | Obj o => o
    | Omitted => ∅
    end in
  let detail := spread {[ "status" := VString "down" ]} additionalData in
  {[ key this := detail ]}.

Definition up (this : HealthIndicatorSession) (data : Data)
  : HealthIndicatorResult :=
  let additionalData : AdditionalData :=
    match data with
    | Str s => {[ "message" := VString s ]}
    | Obj o => o
    | Omitted => ∅
    end in
  let detail := spread {[ "status" := VString "up" ]} additionalData in
  {[ key this := detail ]}.

(** The [status] field of the detail stored under [k]. *)
Definition status_of (r : HealthIndicatorResult) (k : string) : option value :=
  r !! k ≫= λ detail, detail !! "status".

Definition message_of (r : HealthIndicatorResult) (k : string) : option value :=
  r !! k ≫= λ detail, detail !! "message".

End HealthIndicatorService.

Import HealthIndicatorService.

(** ** Errors, completions and promises *)

(** The three classes the probe tells apart with [instanceof]; anything
    else that can be thrown is an [Error]. *)
Inductive error :=
| PromiseTimeoutError (msg : string)
| MongoConnectionError (msg : string)
| Error (msg : string).

(** [err.message] *)
Definition message (e : error) : string :=
  match e with
  | PromiseTimeoutError m | MongoConnectionError m | Error m => m
  end.

(** How a synchronous piece of code ends. *)
Inductive completion (A : Type) :=
| Throw (e : error)
| Return (a : A).
Arguments Throw {A} e.
Arguments Return {A} a.

#[global] Instance completion_ret : MRet completion := λ A a, Return a.
#[global] Instance completion_bind : MBind completion := λ A B f c,
  match c with
  | Throw e => Throw e
  | Return a => f a
  end.

(** [try { body } catch (err) { handler(err) }] *)
Definition try_catch {A} (body : completion A) (handler : error → completion A)
  : completion A :=
  match body with
  | Throw e => handler e
  | Return a => Return a
  end.

(** A promise, seen from the moment it is created: it stays pending for
    ever, or settles [at_ms] milliseconds later, fulfilled ([Return]) or
    rejected ([Throw]). *)
Inductive Promise (A : Type) :=
| Pending
| Settled (at_ms : N) (outcome : completion A).
Arguments Pending {A}.
Arguments Settled {A} at_ms outcome.

Definition resolved {A} (a : A) : Promise A := Settled 0 (Return a).
Definition rejected {A} (e : error) : Promise A := Settled 0 (Throw e).

(** A promise created [t] ms after the origin, re-dated to the origin. *)
Definition delay {A} (t : N) (p : Promise A) : Promise A :=
  match p with
  | Pending => Pending
  | Settled d r => Settled (t + d) r
  end.

(** Calls the probe makes on the connection handle and its driver. *)
Inductive call :=
| Query (sql : string)
| MongoConnect (url : string) (opts : value)
| MongoClose.

(** What the code can change while it runs: the calls a recording handle
    has seen so far, and the fate of the promise under construction by
    [new Promise] (the probe builds at most one per invocation): empty
    until [resolve] or [reject] is called for the first time. *)
Record state := {
  calls : list call;
  fate : option (N * completion unit);
}.

Definition initial : state := {| calls := []; fate := None |}.

(** [a || b] on an optional number: [a] when it is there and truthy. *)
Definition logical_or (a : option number) (b : number) : number :=
  match a with
  | Some n => if number_truthy n then n else b
  | None => b
  end.

(** Synchronous code over that state. *)
Definition M (A : Type) : Type := state → state * completion A.

#[global] Instance M_ret : MRet M := λ A a s, (s, Return a).
#[global] Instance M_bind : MBind M := λ A B f m s,
  match m s with
  | (s', Throw e) => (s', Throw e)
  | (s', Return a) => f a s'
  end.

Definition throw {A} (e : error) : M A := λ s, (s, Throw e).
Definition lift {A} (c : completion A) : M A := λ s, (s, c).
Definition record_call (c : call) : M unit :=
  λ s, ({| calls := calls s ++ [c]; fate := fate s |}, Return tt).

(** [resolve()] and [reject(e)] of the promise under construction, called
    at time [now]; once the promise is settled further calls do nothing. *)
Definition settle (now : N) (r : completion unit) : M unit := λ s,
  match fate s with
  | None => ({| calls := calls s; fate := Some (now, r) |}, Return tt)
  | Some _ => (s, Return tt)
  end.
Definition resolve (now : N) : M unit := settle now (Return tt).
Definition reject (now : N) (e : error) : M unit := settle now (Throw e).

(** A callback given to [.then] or [.catch]: it runs at time [now] and
    hands back a promise (a plain value counts as an already fulfilled
    promise), or throws. *)
Definition callback (A B : Type) : Type := N → A → M (Promise B).

Definition adopt {B} (now : N) (r : completion (Promise B)) : Promise B :=
  match r with
  | Throw e => Settled now (Throw e)
  | Return p => delay now p
  end.

Definition run_callback {B} (now : N) (body : M (Promise B)) : M (Promise B) :=
  λ s, let '(s', r) := body s in (s', Return (adopt now r)).

(** [p.then(onFulfilled)] *)
Definition p_then {A B} (p : Promise A) (onFulfilled : callback A B)
  : M (Promise B) :=
  match p with
  | Pending => mret Pending
  | Settled t (Throw e) => mret (Settled t (Throw e))
  | Settled t (Return a) => run_callback t (onFulfilled t a)
  end.

Definition promise_map {A B} (f : A → B) (p : Promise A) : Promise B :=
  match p with
  | Pending => Pending
  | Settled t (Throw e) => Settled t (Throw e)
  | Settled t (Return a) => Settled t (Return (f a))
  end.

(** [p.catch(onRejected)]: a promise for [A | B]. *)
Definition p_catch {A B} (p : Promise A) (onRejected : callback error B)
  : M (Promise (A + B)) :=
  match p with
  | Pending => mret Pending
  | Settled t (Return a) => mret (Settled t (Return (inl a)))
  | Settled t (Throw e) =>
      q ← run_callback t (onRejected t e); mret (promise_map inr q)
  end.

(** [new Promise(executor)]: the executor runs at once; if it throws, the
    promise is rejected with what it threw.  The promise is then whatever
    [resolve]/[reject] made of it. *)
Definition new_Promise (executor : M unit) : M (Promise unit) := λ s,
  let s0 := {| calls := calls s; fate := None |} in
  let '(s1, r) := executor s0 in
  let '(s2, _) := match r with
                  | Throw e => reject 0 e s1
                  | Return _ => (s1, Return tt)
                  end in
  ({| calls := calls s2; fate := fate s |},
   Return match fate s2 with
          | None => Pending
          | Some (t, r) => Settled t r
          end).

(** An [async] function: an exception thrown before the first [await]
    rejects the returned promise. *)
Definition async {A} (body : M (Promise A)) : M (Promise A) := λ s,
  match body s with
  | (s', Throw e) => (s', Return (rejected e))
  | (s', Return p) => (s', Return p)
  end.

(** [try { x = await p; return ok(x) } catch (err) { return handler(err) }]
    where neither branch touches the state. *)
Definition try_await {A B} (p : Promise A) (ok : A → B) (handler : error → B)
  : Promise B :=
  match p with
  | Pending => Pending
  | Settled t (Return a) => Settled t (Return (ok a))
  | Settled t (Throw e) => Settled t (Return (handler e))
  end.

(** Modelled from the spec: the delay of the timer that [promiseTimeout]
    (in [../../utils], not part of the sources at hand) races the check
    against, "a timer of [timeout] ms". *)
Definition timer_ms (ms : number) : N :=
  match ms with
  | Int z => Z.to_N z
  | NaN | NegZero => 0
  end.

(** Modelled from the spec: [promiseTimeout] and its [TimeoutError] live in
    [../../utils], which is not part of the sources at hand.  The spec: "Race
    the chosen check against a timer of [timeout] ms.  If the timer fires
    first, the race fails with a Timeout error kind carrying no partial
    result".  The message of that error is not specified and left empty. *)
Definition promiseTimeout {A} (ms : number) (promise : Promise A) : Promise A :=
  match promise with
  | Settled t r =>
      if (t <=? timer_ms ms)%N then Settled t r
      else Settled (timer_ms ms) (Throw (PromiseTimeoutError ""))
  | Pending => Settled (timer_ms ms) (Throw (PromiseTimeoutError ""))
  end.

(** ** database/typeorm.health.ts *)

Module TypeOrmHealthIndicator.

(** What the probe reads of a TypeORM [DataSource] and, for MongoDB, of
    its driver and the native client.  A method is given by what a call to
    it does: it throws, or returns.  [MongoClient_connect] is
    [driver.mongodb.MongoClient.connect]. *)
Record MongoClient := {
  close : completion (Promise unit);
}.

Record DataSourceOptions := {
  type : string;
  url : option string;
}.

Record Driver := {
  buildConnectionUrl : DataSourceOptions → completion string;
  buildConnectionOptions : DataSourceOptions → completion value;
  MongoClient_connect : string → value → completion (Promise MongoClient);
}.

Record DataSource := {
  options : DataSourceOptions;
  driver : Driver;
  query : string → completion (Promise value);
}.

Record TypeOrmPingCheckSettings := {
  connection : option DataSource;
  timeout : option number;
}.

(** The collaborators the indicator is wired to: [checkPackages] of
    [../../utils], the [@nestjs/typeorm] utility module loaded with
    [require] (what matters of it is [getDataSourceToken]), and
    [moduleRef.get] called with [{ strict: false }]. *)
Record Env := {
  checkPackages : list string → string → completion unit;
  require_typeorm_utils : completion (unit → completion string);
  moduleRef_get : string → completion (option DataSource);
}.

Section WithEnv.

Context (env : Env).

Definition checkDependantPackages : completion unit :=
  checkPackages env ["@nestjs/typeorm"; "typeorm"] "TypeOrmHealthIndicator".

Definition getContextConnection : completion (option DataSource) :=
  getDataSourceToken ← require_typeorm_utils env;
  try_catch
    (token ← getDataSourceToken tt;
     moduleRef_get env token)
    (λ err, Return None).

(** [connection.options.url ? ... : ...]: an absent or empty url is falsy. *)
Definition url_truthy (u : option string) : option string :=
  match u with
  | Some "" | None => None
  | Some s => Some s
  end.

Definition checkMongoDBConnection (connection : DataSource)
  : M (Promise unit) :=
  async (new_Promise (
    let driver := driver connection in
    url ← match url_truthy (url (options connection)) with
          | Some u => mret u
          | None => lift (buildConnectionUrl driver (options connection))
          end;
    opts ← lift (buildConnectionOptions driver (options connection));
    record_call (MongoConnect url opts);;
    p ← lift (MongoClient_connect driver url opts);
    p ← p_catch p (λ now err,
          reject now (MongoConnectionError (message err));;
          mret (resolved tt));
    p ← p_then p (λ now (client : MongoClient + unit),
          match client with
          | inl client => record_call MongoClose;; lift (close client)
          | inr _ =>
              throw (Error "Cannot read properties of undefined (reading 'close')")
          end);
    p ← p_catch p (λ now _, mret (resolved tt));
    _ ← p_then p (λ now _, resolve now;; mret (resolved tt));
    mret tt)).

Definition call_query (connection : DataSource) (sql : string)
  : M (Promise value) :=
  record_call (Query sql);; lift (query connection sql).

Definition pingDb (connection : DataSource) (timeout : number)
  : M (Promise value) :=
  async (
    check ←
      (let type := type (options connection) in
       if String.eqb type "mongodb" then
         p ← checkMongoDBConnection connection;
         mret (promise_map (λ _, VUndefined) p)
       else if String.eqb type "oracle" then
         call_query connection "SELECT 1 FROM DUAL"
       else if String.eqb type "sap" then
         call_query connection "SELECT now() FROM dummy"
       else
         call_query connection "SELECT 1");
    mret (promiseTimeout timeout check)).

Definition pingCheck (key : string) (options : TypeOrmPingCheckSettings)
  : M (Promise HealthIndicatorResult) :=
  async (
    let check := HealthIndicatorService.check key in
    lift checkDependantPackages;;
    connection ← match connection options with
                 | Some c => mret (Some c)
                 | None => lift getContextConnection
                 end;
    let timeout := logical_or (timeout options) (Int 1000) in
    match connection with
    | None =>
        mret (resolved
          (down check (Str "Connection provider not found in application context")))
    | Some connection =>
        p ← pingDb connection timeout;
        mret (try_await p
          (λ _, up check Omitted)
          (λ err,
             match err with
             | PromiseTimeoutError _ =>
                 down check (Str ("timeout of " +:+ number_toString timeout
                                  +:+ "ms exceeded"))
             | MongoConnectionError _ => down check (Str (message err))
             | Error _ => down check (Str (key +:+ " is not available"))
             end))
    end).

End WithEnv.

End TypeOrmHealthIndicator.

Import TypeOrmHealthIndicator.

(** ** Observing a run *)

(** The calls made and the outcome, starting with nothing recorded. *)
Definition run {A} (m : M A) : list call * completion A :=
  let '(s, r) := m initial in (calls s, r).

(** The two shapes of record the probe reports. *)
Definition up_record (key : string) : gmap string (gmap string value) :=
  {[ key := {[ "status" := VString "up" ]} ]}.

Definition down_record (key msg : string) : gmap string (gmap string value) :=
  {[ key := {[ "status" := VString "down"; "message" := VString msg ]} ]}.

(** The per-call package-presence check passes. *)
Definition packages_present (env : Env) : Prop :=
  checkDependantPackages env = Return tt.

(** The value of [options.connection || this.getContextConnection()] is
    [c]: the handle passed in, or else the one found in the context. *)
Definition handle (env : Env) (options : TypeOrmPingCheckSettings)
  (c : option DataSource) : Prop :=
  match connection options with
  | Some c' => c = Some c'
  | None => getContextConnection env = Return c
  end.

(** The liveness statement per backend kind, in the words of the
    specification; [None] is the side-connection procedure. *)
Definition spec_liveness_query (kind : string) : option string :=
  if decide (kind = "mongodb") then None
  else if decide (kind = "oracle") then Some "SELECT 1 FROM DUAL"
  else if decide (kind = "sap") then Some "SELECT now() FROM dummy"
  else Some "SELECT 1".

(** The state after the calls [cs] have been made. *)
Definition log (cs : list call) (s : state) : state :=
  {| calls := calls s ++ cs; fate := fate s |}.

Definition is_query (c : call) : bool :=
  match c with
  | Query _ => true
  | MongoConnect _ _ | MongoClose => false
  end.

(** The url the side connection is opened with:
    [connection.options.url ? connection.options.url
                            : driver.buildConnectionUrl(connection.options)]. *)
Definition mongo_url (c : DataSource) : completion string :=
  match url_truthy (url (options c)) with
  | Some u => Return u
  | None => buildConnectionUrl (driver c) (options c)
  end.

(** The record the [catch] block of [pingCheck] answers with. *)
Definition on_error (key : string) (timeout : number) (err : error)
  : gmap string (gmap string value) :=
  match err with
  | PromiseTimeoutError _ =>
      down_record key ("timeout of " +:+ number_toString timeout +:+ "ms exceeded")
  | MongoConnectionError m => down_record key m
  | Error _ => down_record key (key +:+ " is not available")
  end.

(** The call ends with a status record handed to the caller: the promise
    of the [async] function is fulfilled, neither rejected nor pending. *)
Definition reports (m : M (Promise (gmap string (gmap string value)))) : Prop :=
  ∃ cs t r, run m = (cs, Return (Settled t (Return r))) ∧ size r = 1.

(** At most one dispatch on the handle: nothing, one statement, or one
    native connect, possibly followed by its close. *)
Definition single_dispatch (cs : list call) : bool :=
  match cs with
  | [] | [Query _] | [MongoConnect _ _] | [MongoConnect _ _; MongoClose] => true
  | _ => false
  end.

(** Unfolds the plumbing of [M]. *)
Ltac step_M := unfold mbind, M_bind, mret, M_ret, lift, record_call; simpl.

(** ** Fixtures *)

Module Fixtures.

Definition no_driver : Driver := {|
  buildConnectionUrl := λ _, Throw (Error "driver.buildConnectionUrl is not a function");
  buildConnectionOptions := λ _, Throw (Error "driver.buildConnectionOptions is not a function");
  MongoClient_connect := λ _ _, Throw (Error "Cannot read properties of undefined (reading 'MongoClient')");
|}.

(** A relational handle of the given kind answering every query after
    [ms] milliseconds. *)
Definition sql_handle (kind : string) (ms : N) : DataSource := {|
  options := {| type := kind; url := None |};
  driver := no_driver;
  query := λ _, Return (Settled ms (Return (VObject [])));
|}.

(** A handle whose queries never come back. *)
Definition slowHandle : DataSource := {|
  options := {| type := "postgres"; url := None |};
  driver := no_driver;
  query := λ _, Return Pending;
|}.

(** A handle whose queries are rejected by the driver. *)
Definition brokenHandle : DataSource := {|
  options := {| type := "mysql"; url := None |};
  driver := no_driver;
  query := λ _, Return (Settled 3 (Throw (Error "ER_ACCESS_DENIED_ERROR")));
|}.

(** A MongoDB handle: the native connect settles as [connect_result]. *)
Definition mongo_handle (connect_result : Promise MongoClient) : DataSource := {|
  options := {| type := "mongodb"; url := Some "mongodb://localhost/test" |};
  driver := {|
    buildConnectionUrl := λ _, Return "mongodb://built";
    buildConnectionOptions := λ _, Return (VObject []);
    MongoClient_connect := λ _ _, Return connect_result;
  |};
  query := λ _, Throw (Error "not supported");
|}.

Definition closed_client : MongoClient :=
  {| close := Return (Settled 2 (Throw (Error "Topology is closed"))) |}.

(** Packages installed; nothing registered under the data source token. *)
Definition env_no_provider : Env := {|
  checkPackages := λ _ _, Return tt;
  require_typeorm_utils := Return (λ _, Return "DataSource");
  moduleRef_get := λ _, Throw (Error "Nest could not find DataSource element");
|}.

(** The package-presence check fails at call time. *)
Definition env_missing_packages : Env := {|
  checkPackages := λ _ reason, Throw (Error ("missing dependencies for " +:+ reason));
  require_typeorm_utils := Return (λ _, Return "DataSource");
  moduleRef_get := λ _, Return None;
|}.

(** The packages are found but the utility module does not load. *)
Definition env_no_utils : Env := {|
  checkPackages := λ _ _, Return tt;
  require_typeorm_utils :=
    Throw (Error "Cannot find module '@nestjs/typeorm/dist/common/typeorm.utils'");
  moduleRef_get := λ _, Return None;
|}.

Definition no_options : TypeOrmPingCheckSettings :=
  {| connection := None; timeout := None |}.

Definition with_connection (c : DataSource) (t : option number)
  : TypeOrmPingCheckSettings :=
  {| connection := Some c; timeout := t |}.

(** A handle is registered in the application context. *)
Definition env_with_provider (c : DataSource) : Env := {|
  checkPackages := λ _ _, Return tt;
  require_typeorm_utils := Return (λ _, Return "DataSource");
  moduleRef_get := λ _, Return (Some c);
|}.

(** A MongoDB handle with the given configured url, whose driver builds
    "mongodb://built" on demand; [connect] is what a call to the native
    connect does. *)
Definition mongo_handle_with (configured : option string)
  (connect : completion (Promise MongoClient)) : DataSource := {|
  options := {| type := "mongodb"; url := configured |};
  driver := {|
    buildConnectionUrl := λ _, Return "mongodb://built";
    buildConnectionOptions := λ _, Return (VObject []);
    MongoClient_connect := λ _ _, connect;
  |};
  query := λ _, Throw (Error "not supported");
|}.

(** A MongoDB handle whose driver cannot build the connection options. *)
Definition mongo_handle_bad_options : DataSource := {|
  options := {| type := "mongodb"; url := Some "mongodb://localhost/test" |};
  driver := {|
    buildConnectionUrl := λ _, Return "mongodb://built";
    buildConnectionOptions := λ _, Throw (Error "invalid replica set");
    MongoClient_connect := λ _ _, Return Pending;
  |};
  query := λ _, Throw (Error "not supported");
|}.

(** A native client whose [close] is rejected after 996 ms. *)
Definition slow_closed_client : MongoClient :=
  {| close := Return (Settled 996 (Throw (Error "Topology is closed"))) |}.

(** A native client whose [close] never comes back. *)
Definition hanging_client : MongoClient := {| close := Return Pending |}.

(** A relational handle whose [query] throws at the call. *)
Definition throwing_handle : DataSource := {|
  options := {| type := "sqlite"; url := None |};
  driver := no_driver;
  query := λ _, Throw (Error "Connection is not established");
|}.

End Fixtures.

(** ** Properties of the result builder *)

Section Builder.

Implicit Types (k s : string) (d : gmap string value).

Lemma spread_lookup_src base d f v :
  d !! f = Some v → spread base d !! f = Some v.
Proof. intros H. unfold spread. by apply lookup_union_Some_l. Qed.

Lemma spread_lookup_base base d f :
  d !! f = None → spread base d !! f = base !! f.
Proof. intros H. unfold spread. by rewrite lookup_union_r. Qed.

Lemma spread_empty base : spread base ∅ = base.
Proof. unfold spread. by rewrite (left_id_L ∅ (∪)). Qed.

(** The status that ends up in the detail object: the one carried by the
    additional data when it has one, the literal otherwise. *)
Lemma down_status k d :
  status_of (down (check k) (Obj d)) k
  = Some (default (VString "down") (d !! "status")).
Proof.
  unfold status_of, down; simpl. rewrite lookup_singleton_eq; simpl.
  destruct (d !! "status") as [v|] eqn:E; simpl.
  - by apply spread_lookup_src.
  - by rewrite spread_lookup_base.
Qed.

Lemma up_status k d :
  status_of (up (check k) (Obj d)) k
  = Some (default (VString "up") (d !! "status")).
Proof.
  unfold status_of, up; simpl. rewrite lookup_singleton_eq; simpl.
  destruct (d !! "status") as [v|] eqn:E; simpl.
  - by apply spread_lookup_src.
  - by rewrite spread_lookup_base.
Qed.

Lemma down_Str k s : down (check k) (Str s) = down_record k s.
Proof. reflexivity. Qed.

Lemma up_Omitted k : up (check k) Omitted = up_record k.
Proof. reflexivity. Qed.

Lemma down_Omitted k :
  down (check k) Omitted = {[ k := {[ "status" := VString "down" ]} ]}.
Proof. reflexivity. Qed.

(** C1, as the code has it: the spread comes after the [status] literal,
    so a [status] entry of the additional data replaces the literal.
    [down] called with [{ status: "up" }] reports "up", and [up] called
    with [{ status: "down" }] reports "down". *)
Theorem status_literal_overwritten :
  status_of (down (check "db") (Obj {[ "status" := VString "up" ]})) "db"
    = Some (VString "up")
  ∧ status_of (up (check "db") (Obj {[ "status" := VString "down" ]})) "db"
    = Some (VString "down").
Proof. split; [rewrite down_status | rewrite up_status]; reflexivity. Qed.

(** C3: for every key [k] and every additional data [d] (mapping, string
    or omitted), the records built by [up] and [down] have exactly one
    entry, and its key is [k]. *)
Theorem result_single_entry k (d : Data) :
  (∃ detail, map_to_list (up (check k) d) = [(k, detail)])
  ∧ (∃ detail, map_to_list (down (check k) d) = [(k, detail)])
  ∧ dom (up (check k) d) = {[ k ]}
  ∧ dom (down (check k) d) = {[ k ]}
  ∧ size (up (check k) d) = 1
  ∧ size (down (check k) d) = 1.
Proof.
  unfold up, down; simpl.
  repeat split;
    [ eexists; apply map_to_list_singleton
    | eexists; apply map_to_list_singleton
    | apply dom_singleton_L | apply dom_singleton_L
    | apply map_size_singleton | apply map_size_singleton ].
Qed.

(** C9: a string argument is the same as the mapping [{ message: s }],
    for [up] and for [down]; an omitted argument is the same as the empty
    mapping, and leaves the status as the only field. *)
Theorem string_data_is_message k s :
  up (check k) (Str s) = up (check k) (Obj {[ "message" := VString s ]})
  ∧ down (check k) (Str s) = down (check k) (Obj {[ "message" := VString s ]})
  ∧ up (check k) Omitted = up (check k) (Obj ∅)
  ∧ down (check k) Omitted = down (check k) (Obj ∅)
  ∧ up (check k) Omitted = {[ k := {[ "status" := VString "up" ]} ]}
  ∧ down (check k) Omitted = {[ k := {[ "status" := VString "down" ]} ]}.
Proof. repeat split. Qed.

End Builder.

(** ** Properties of the connectivity probe *)

Section Probe.

Implicit Types (env : Env) (c : DataSource) (key : string)
  (options : TypeOrmPingCheckSettings) (s : state).

Lemma log_nil s : log [] s = s.
Proof. destruct s; unfold log; simpl. by rewrite app_nil_r. Qed.

Lemma log_log cs cs' s : log cs' (log cs s) = log (cs ++ cs') s.
Proof. unfold log; simpl. by rewrite app_assoc. Qed.

Lemma run_log {A} (m : M A) cs r :
  m initial = (log cs initial, r) → run m = (cs, r).
Proof. unfold run. by intros ->. Qed.

(** *** The race against the timer *)

Lemma promiseTimeout_settles {A} ms (p : Promise A) :
  ∃ t r, promiseTimeout ms p = Settled t r.
Proof.
  destruct p as [|t r]; simpl; [by eauto|].
  destruct (t <=? timer_ms ms)%N; eauto.
Qed.

Lemma promiseTimeout_in_time {A} ms t (r : completion A) :
  (t ≤ timer_ms ms)%N → promiseTimeout ms (Settled t r) = Settled t r.
Proof. intros H. simpl. by apply N.leb_le in H as ->. Qed.

Lemma promiseTimeout_late {A} ms t (r : completion A) :
  (timer_ms ms < t)%N →
  promiseTimeout ms (Settled t r)
  = Settled (timer_ms ms) (Throw (PromiseTimeoutError "")).
Proof. intros H. simpl. by apply N.leb_gt in H as ->. Qed.

(** *** [logical_or]: the [||] of [options.timeout || 1000] *)

Lemma logical_or_truthy n d : number_truthy n = true → logical_or (Some n) d = n.
Proof. intros H. unfold logical_or. by rewrite H. Qed.

Lemma logical_or_falsy n d : number_truthy n = false → logical_or (Some n) d = d.
Proof. intros H. unfold logical_or. by rewrite H. Qed.

Lemma logical_or_is_truthy a d :
  number_truthy d = true → number_truthy (logical_or a d) = true.
Proof.
  intros H. destruct a as [n|]; simpl; [|done].
  by destruct (number_truthy n) eqn:E.
Qed.

(** *** The MongoDB side connection *)

(** The side connection never throws at its caller and never queries. *)
Lemma checkMongoDBConnection_total c s :
  ∃ cs p, checkMongoDBConnection c s = (log cs s, Return p)
          ∧ forallb (λ x, negb (is_query x)) cs = true.
Proof.
  unfold checkMongoDBConnection, async, new_Promise, log.
  destruct c as [o d q]; simpl. step_M.
  destruct (url_truthy (url o)) as [u|]; simpl;
    [| destruct (buildConnectionUrl d o) as [e|u]; simpl;
       [exists [], (Settled 0 (Throw e)); by rewrite app_nil_r|] ];
    (destruct (buildConnectionOptions d o) as [e|opts]; simpl;
       [exists [], (Settled 0 (Throw e)); by rewrite app_nil_r|]);
    (destruct (MongoClient_connect d u opts) as [e|[|t [e|client]]]; simpl;
       try (by eexists [_], _));
    destruct (close client) as [e|[|t' [e|[]]]]; simpl;
    by (eexists [_; _], _; rewrite <- app_assoc).
Qed.

(** Opening fails: the promise is rejected with a [MongoConnectionError]
    carrying the message of the underlying error; nothing is closed. *)
Lemma checkMongoDBConnection_open_rejected c s u opts t e :
  mongo_url c = Return u →
  buildConnectionOptions (driver c) (options c) = Return opts →
  MongoClient_connect (driver c) u opts = Return (Settled t (Throw e)) →
  checkMongoDBConnection c s
  = (log [MongoConnect u opts] s,
     Return (Settled t (Throw (MongoConnectionError (message e))))).
Proof.
  unfold mongo_url, checkMongoDBConnection, async, new_Promise, log.
  destruct c as [o d q]; simpl. intros Hu Ho Hc. step_M.
  destruct (url_truthy (url o)); simpl; [injection Hu as ->|rewrite Hu];
    simpl; rewrite Ho; simpl; rewrite Hc; reflexivity.
Qed.

(** Opening succeeds: whatever [close] does when it settles, the promise
    is fulfilled at that moment. *)
Lemma checkMongoDBConnection_open_ok c s u opts t client :
  mongo_url c = Return u →
  buildConnectionOptions (driver c) (options c) = Return opts →
  MongoClient_connect (driver c) u opts = Return (Settled t (Return client)) →
  checkMongoDBConnection c s
  = (log [MongoConnect u opts; MongoClose] s,
     Return match close client with
            | Throw _ => Settled t (Return tt)
            | Return Pending => Pending
            | Return (Settled t' _) => Settled (t + t') (Return tt)
            end).
Proof.
  unfold mongo_url, checkMongoDBConnection, async, new_Promise, log.
  destruct c as [o d q]; simpl. intros Hu Ho Hc. step_M.
  destruct (url_truthy (url o)); simpl; [injection Hu as ->|rewrite Hu];
    simpl; rewrite Ho; simpl; rewrite Hc; simpl;
    destruct (close client) as [e|[|t' [e|[]]]]; simpl;
    by rewrite <- app_assoc, ?N.add_0_r.
Qed.

(** *** [pingDb] *)

Lemma call_query_eq c sql s :
  call_query c sql s = (log [Query sql] s, query c sql).
Proof. reflexivity. Qed.

Lemma pingDb_query c timeout s sql :
  spec_liveness_query (type (options c)) = Some sql →
  pingDb c timeout s
  = (log [Query sql] s,
     Return match query c sql with
            | Throw e => rejected e
            | Return p => promiseTimeout timeout p
            end).
Proof.
  unfold spec_liveness_query, pingDb, async. step_M.
  destruct (String.eqb_spec (type (options c)) "mongodb") as [E|E];
    [rewrite decide_True by done; discriminate|rewrite decide_False by done].
  destruct (String.eqb_spec (type (options c)) "oracle") as [E1|E1];
    [rewrite decide_True by done|rewrite decide_False by done].
  { intros [= <-]. rewrite call_query_eq. by destruct (query c _). }
  destruct (String.eqb_spec (type (options c)) "sap") as [E2|E2];
    [rewrite decide_True by done|rewrite decide_False by done];
    intros [= <-]; rewrite call_query_eq; by destruct (query c _).
Qed.

Lemma pingDb_mongodb c timeout s s' p :
  spec_liveness_query (type (options c)) = None →
  checkMongoDBConnection c s = (s', Return p) →
  pingDb c timeout s
  = (s', Return (promiseTimeout timeout (promise_map (λ _, VUndefined) p))).
Proof.
  unfold spec_liveness_query, pingDb, async. step_M.
  destruct (String.eqb_spec (type (options c)) "mongodb") as [E|E];
    [rewrite decide_True by done|rewrite decide_False by done].
  - intros _ ->. reflexivity.
  - repeat case_decide; discriminate.
Qed.

(** [pingDb] always hands back a promise, and that promise settles. *)
Lemma pingDb_total c timeout s :
  ∃ cs t r, pingDb c timeout s = (log cs s, Return (Settled t r)).
Proof.
  destruct (spec_liveness_query (type (options c))) as [sql|] eqn:E.
  - exists [Query sql]. rewrite (pingDb_query _ _ _ _ E).
    destruct (query c sql) as [e|p]; [by eexists _, _|].
    destruct (promiseTimeout_settles timeout p) as (t & r & ->). eauto.
  - destruct (checkMongoDBConnection_total c s) as (cs & p & Hp & _).
    exists cs. rewrite (pingDb_mongodb _ _ _ _ _ E Hp).
    destruct (promiseTimeout_settles timeout (promise_map (λ _, VUndefined) p))
      as (t & r & ->). eauto.
Qed.

(** *** [pingCheck] *)

Lemma pingCheck_no_handle env key options s :
  packages_present env → handle env options None →
  pingCheck env key options s
  = (s, Return (resolved (down_record key
          "Connection provider not found in application context"))).
Proof.
  unfold packages_present, handle, pingCheck, async. intros Hp Hh. step_M.
  rewrite Hp. destruct (connection options); [discriminate|].
  by rewrite Hh.
Qed.

Lemma pingCheck_with_handle env key options c s s' p :
  packages_present env → handle env options (Some c) →
  pingDb c (logical_or (timeout options) (Int 1000)) s = (s', Return p) →
  pingCheck env key options s
  = (s', Return (try_await p (λ _, up_record key)
                   (on_error key (logical_or (timeout options) (Int 1000))))).
Proof.
  unfold packages_present, handle, pingCheck, async. intros Hp Hh Hdb. step_M.
  rewrite Hp.
  destruct (connection options) as [c'|];
    [injection Hh as <-|rewrite Hh]; rewrite Hdb;
    by destruct p as [|t [[]|v]].
Qed.

(** When [moduleRef.get] throws, [getContextConnection] answers [null]. *)
Lemma getContextConnection_not_found env getDataSourceToken token e :
  require_typeorm_utils env = Return getDataSourceToken →
  getDataSourceToken tt = Return token →
  moduleRef_get env token = Throw e →
  getContextConnection env = Return None.
Proof.
  unfold getContextConnection. intros -> Ht Hg.
  unfold mbind, completion_bind, try_catch. by rewrite Ht, Hg.
Qed.

Lemma getContextConnection_returns env f :
  require_typeorm_utils env = Return f →
  ∃ oc, getContextConnection env = Return oc.
Proof.
  unfold getContextConnection. intros ->.
  unfold mbind, completion_bind, try_catch.
  destruct (f tt) as [e|token]; [by eauto|].
  destruct (moduleRef_get env token); eauto.
Qed.

Lemma run_pingCheck_no_handle env key options :
  packages_present env → handle env options None →
  run (pingCheck env key options)
  = ([], Return (resolved (down_record key
           "Connection provider not found in application context"))).
Proof.
  intros Hp Hh. unfold run. by rewrite (pingCheck_no_handle _ _ _ _ Hp Hh).
Qed.

Lemma run_pingCheck_with_handle env key options c cs p :
  packages_present env → handle env options (Some c) →
  run (pingDb c (logical_or (timeout options) (Int 1000))) = (cs, Return p) →
  run (pingCheck env key options)
  = (cs, Return (try_await p (λ _, up_record key)
                   (on_error key (logical_or (timeout options) (Int 1000))))).
Proof.
  intros Hp Hh. unfold run.
  destruct (pingDb c _ initial) as [s' r] eqn:E. intros [= <- ->].
  by rewrite (pingCheck_with_handle _ _ _ _ _ _ _ Hp Hh E).
Qed.

Lemma run_pingDb_total c timeout :
  ∃ cs t r, run (pingDb c timeout) = (cs, Return (Settled t r)).
Proof.
  destruct (pingDb_total c timeout initial) as (cs & t & r & E).
  exists cs, t, r. by apply run_log.
Qed.

Lemma on_error_size key timeout err : size (on_error key timeout err) = 1.
Proof. destruct err; apply map_size_singleton. Qed.

Lemma kind_mongodb kind :
  kind = "mongodb" → spec_liveness_query kind = None.
Proof. intros ->. reflexivity. Qed.

(** *** What the caller gets *)

(** C2, as amended: when the per-call package-presence check passes, and
    the [@nestjs/typeorm] utility module loads whenever the handle has to
    be looked up, [pingCheck] ends with a status record: a failing handle
    lookup and every failure of the liveness check are caught and
    reported through the record. *)
Theorem pingCheck_reports env key options :
  packages_present env →
  (connection options = None → ∃ f, require_typeorm_utils env = Return f) →
  reports (pingCheck env key options).
Proof.
  intros Hp Hreq. unfold reports.
  assert (∃ oc, handle env options oc) as [[c|] Hh].
  { unfold handle. destruct (connection options) as [c|]; [by eauto|].
    destruct Hreq as [f Hf]; [done|].
    by apply getContextConnection_returns in Hf. }
  - destruct (run_pingDb_total c (logical_or (timeout options) (Int 1000)))
      as (cs & t & r & E).
    rewrite (run_pingCheck_with_handle _ key _ _ _ _ Hp Hh E).
    destruct r as [e|v]; simpl; eexists _, _, _; (split; [reflexivity|]).
    + apply on_error_size.
    + apply map_size_singleton.
  - rewrite (run_pingCheck_no_handle _ key _ Hp Hh).
    eexists _, _, _; split; [reflexivity|apply map_size_singleton].
Qed.

Lemma pingCheck_reports_witness :
  reports (pingCheck Fixtures.env_no_provider "db"
             (Fixtures.with_connection Fixtures.brokenHandle None)).
Proof.
  apply (pingCheck_reports Fixtures.env_no_provider "db"
           (Fixtures.with_connection Fixtures.brokenHandle None)).
  - reflexivity.
  - intros _. eexists. reflexivity.
Defined.

(** C2, as stated, fails: with the packages missing at call time the
    error of the package-presence check rejects the promise that
    [pingCheck] returns; no record is produced. *)
Lemma package_check_failure_escapes :
  run (pingCheck Fixtures.env_missing_packages "db" Fixtures.no_options)
  = ([], Return (rejected
           (Error "missing dependencies for TypeOrmHealthIndicator")))
  ∧ ¬ reports (pingCheck Fixtures.env_missing_packages "db" Fixtures.no_options).
Proof.
  assert (run (pingCheck Fixtures.env_missing_packages "db" Fixtures.no_options)
          = ([], Return (rejected
               (Error "missing dependencies for TypeOrmHealthIndicator")))) as E
    by reflexivity.
  split; [exact E|].
  intros (cs & t & r & H & _). rewrite E in H. discriminate.
Qed.

(** The same happens when the utility module cannot be loaded. *)
Example utils_load_failure_escapes :
  run (pingCheck Fixtures.env_no_utils "db" Fixtures.no_options)
  = ([], Return (rejected
      (Error "Cannot find module '@nestjs/typeorm/dist/common/typeorm.utils'"))).
Proof. reflexivity. Qed.

(** C4: the statement [pingDb] issues is chosen by the kind of the
    connection: "oracle" gets [SELECT 1 FROM DUAL], "sap" gets
    [SELECT now() FROM dummy], every other kind but "mongodb" gets
    [SELECT 1], and exactly that one statement is issued, its answer being
    raced against the timer.  For "mongodb" no statement is issued: the
    side-connection procedure is raced instead. *)
Theorem liveness_query_by_kind c timeout :
  match spec_liveness_query (type (options c)) with
  | Some sql =>
      run (pingDb c timeout)
      = ([Query sql],
         Return match query c sql with
                | Throw e => rejected e
                | Return p => promiseTimeout timeout p
                end)
  | None =>
      ∃ cs p,
        run (checkMongoDBConnection c) = (cs, Return p)
        ∧ run (pingDb c timeout)
          = (cs, Return (promiseTimeout timeout (promise_map (λ _, VUndefined) p)))
        ∧ forallb (λ x, negb (is_query x)) cs = true
  end.
Proof.
  destruct (spec_liveness_query (type (options c))) as [sql|] eqn:E.
  - apply run_log. by apply pingDb_query.
  - destruct (checkMongoDBConnection_total c initial) as (cs & p & Hp & Hq).
    exists cs, p. repeat split; [by apply run_log| |done].
    apply run_log. by apply pingDb_mongodb.
Qed.

(** C5: without [options.connection] and without a handle in the
    application context, [pingCheck] answers at once with the down-record
    "Connection provider not found in application context", and no call
    has been made on any handle. *)
Theorem no_handle_reports_down env key options :
  packages_present env →
  connection options = None →
  getContextConnection env = Return None →
  run (pingCheck env key options)
  = ([], Return (resolved (down_record key
           "Connection provider not found in application context"))).
Proof.
  intros Hp Hc Hg. apply run_pingCheck_no_handle; [done|].
  unfold handle. by rewrite Hc.
Qed.

Lemma no_handle_reports_down_witness :
  run (pingCheck Fixtures.env_no_provider "db" Fixtures.no_options)
  = ([], Return (resolved (down_record "db"
           "Connection provider not found in application context"))).
Proof.
  apply (no_handle_reports_down Fixtures.env_no_provider "db" Fixtures.no_options);
    reflexivity.
Defined.

Example oracle_statement :
  run (pingDb (Fixtures.sql_handle "oracle" 4) (Int 1000))
  = ([Query "SELECT 1 FROM DUAL"], Return (Settled 4 (Return (VObject [])))).
Proof. reflexivity. Qed.

Example healthy_handle_is_up :
  run (pingCheck Fixtures.env_no_provider "db"
         (Fixtures.with_connection (Fixtures.sql_handle "postgres" 4) None))
  = ([Query "SELECT 1"], Return (Settled 4 (Return (up_record "db")))).
Proof. reflexivity. Qed.

(** C6, as amended: the budget is [options.timeout] when that is supplied
    and truthy (neither zero nor NaN) and 1000 otherwise; when the
    liveness check is rejected with the timeout error, [pingCheck]
    answers with the down-record "timeout of {budget}ms exceeded". *)
Theorem timeout_reported env key options c cs t m :
  packages_present env →
  handle env options (Some c) →
  run (pingDb c (logical_or (timeout options) (Int 1000)))
  = (cs, Return (Settled t (Throw (PromiseTimeoutError m)))) →
  logical_or (timeout options) (Int 1000)
  = match timeout options with
    | Some n => if number_truthy n then n else Int 1000
    | None => Int 1000
    end
  ∧ run (pingCheck env key options)
    = (cs, Return (Settled t (Return (down_record key
             ("timeout of "
              +:+ number_toString (logical_or (timeout options) (Int 1000))
              +:+ "ms exceeded"))))).
Proof.
  intros Hp Hh E. split; [reflexivity|].
  by rewrite (run_pingCheck_with_handle _ key _ _ _ _ Hp Hh E).
Qed.

Lemma timeout_reported_witness :
  logical_or (Some (Int 50)) (Int 1000) = Int 50
  ∧ run (pingCheck Fixtures.env_no_provider "db"
           (Fixtures.with_connection Fixtures.slowHandle (Some (Int 50))))
    = ([Query "SELECT 1"],
       Return (Settled 50 (Return (down_record "db" "timeout of 50ms exceeded")))).
Proof.
  apply (timeout_reported Fixtures.env_no_provider "db"
           (Fixtures.with_connection Fixtures.slowHandle (Some (Int 50)))
           Fixtures.slowHandle [Query "SELECT 1"] 50%N "");
    reflexivity.
Defined.

(** C6, as stated, fails: a timeout supplied as 0 is not the budget; the
    race runs against 1000 ms and the record names 1000. *)
Lemma zero_timeout_not_the_budget :
  timeout (Fixtures.with_connection Fixtures.slowHandle (Some (Int 0)))
  = Some (Int 0)
  ∧ logical_or (Some (Int 0)) (Int 1000) ≠ Int 0
  ∧ run (pingCheck Fixtures.env_no_provider "db"
           (Fixtures.with_connection Fixtures.slowHandle (Some (Int 0))))
    = ([Query "SELECT 1"],
       Return (Settled 1000
                 (Return (down_record "db" "timeout of 1000ms exceeded")))).
Proof. repeat split. discriminate. Qed.

(** C7: a liveness check that fails with an error other than the timeout
    is classified.  A [MongoConnectionError] puts its own message in the
    down-record; any other error gives "{key} is not available", whatever
    its message.  And on the MongoDB path a rejected native connect
    reaches [pingCheck] as the [MongoConnectionError] carrying the
    message of the underlying error, so that message is what the record
    shows. *)
Theorem failure_classified env key options c :
  packages_present env →
  handle env options (Some c) →
  (∀ cs t m,
      run (pingDb c (logical_or (timeout options) (Int 1000)))
      = (cs, Return (Settled t (Throw (MongoConnectionError m)))) →
      run (pingCheck env key options)
      = (cs, Return (Settled t (Return (down_record key m)))))
  ∧ (∀ cs t m,
      run (pingDb c (logical_or (timeout options) (Int 1000)))
      = (cs, Return (Settled t (Throw (Error m)))) →
      run (pingCheck env key options)
      = (cs, Return (Settled t (Return
               (down_record key (key +:+ " is not available"))))))
  ∧ (∀ u opts t e,
      type (TypeOrmHealthIndicator.options c) = "mongodb" →
      mongo_url c = Return u →
      buildConnectionOptions (driver c) (TypeOrmHealthIndicator.options c)
      = Return opts →
      MongoClient_connect (driver c) u opts = Return (Settled t (Throw e)) →
      (t ≤ timer_ms (logical_or (timeout options) (Int 1000)))%N →
      run (pingCheck env key options)
      = ([MongoConnect u opts],
         Return (Settled t (Return (down_record key (message e)))))).
Proof.
  intros Hp Hh. repeat split.
  - intros cs t m E.
    by rewrite (run_pingCheck_with_handle _ key _ _ _ _ Hp Hh E).
  - intros cs t m E.
    by rewrite (run_pingCheck_with_handle _ key _ _ _ _ Hp Hh E).
  - intros u opts t e Hk Hu Ho Hc Ht.
    assert (run (pingDb c (logical_or (timeout options) (Int 1000)))
            = ([MongoConnect u opts],
               Return (Settled t (Throw (MongoConnectionError (message e))))))
      as E.
    { apply run_log.
      rewrite (pingDb_mongodb _ _ _ _ _ (kind_mongodb _ Hk)
                 (checkMongoDBConnection_open_rejected _ _ _ _ _ _ Hu Ho Hc)).
      cbn [promise_map]. by rewrite promiseTimeout_in_time. }
    by rewrite (run_pingCheck_with_handle _ key _ _ _ _ Hp Hh E).
Qed.

Lemma failure_classified_witness :
  run (pingCheck Fixtures.env_no_provider "db"
         (Fixtures.with_connection Fixtures.brokenHandle None))
  = ([Query "SELECT 1"],
     Return (Settled 3 (Return (down_record "db" "db is not available"))))
  ∧ run (pingCheck Fixtures.env_no_provider "db"
           (Fixtures.with_connection
              (Fixtures.mongo_handle (Settled 5 (Throw (Error "ECONNREFUSED"))))
              None))
    = ([MongoConnect "mongodb://localhost/test" (VObject [])],
       Return (Settled 5 (Return (down_record "db" "ECONNREFUSED")))).
Proof.
  split.
  - apply (proj1 (proj2 (failure_classified Fixtures.env_no_provider "db"
             (Fixtures.with_connection Fixtures.brokenHandle None)
             Fixtures.brokenHandle eq_refl eq_refl))
             [Query "SELECT 1"] 3%N "ER_ACCESS_DENIED_ERROR").
    reflexivity.
  - apply (proj2 (proj2 (failure_classified Fixtures.env_no_provider "db"
             (Fixtures.with_connection
                (Fixtures.mongo_handle (Settled 5 (Throw (Error "ECONNREFUSED"))))
                None)
             (Fixtures.mongo_handle (Settled 5 (Throw (Error "ECONNREFUSED"))))
             eq_refl eq_refl))
             "mongodb://localhost/test" (VObject []) 5%N (Error "ECONNREFUSED"));
      try reflexivity.
    apply N.leb_le. reflexivity.
Defined.

(** C8, as amended: on the MongoDB path, once the native connect has
    succeeded, a [close] that throws or is rejected does not change the
    verdict: the side connection is closed, the error is dropped, and
    provided the close has failed before the timer fires (connect time plus
    close time within the budget) the probe reports "up". *)
Theorem close_failure_ignored env key options c u opts t client e d :
  packages_present env →
  handle env options (Some c) →
  type (TypeOrmHealthIndicator.options c) = "mongodb" →
  mongo_url c = Return u →
  buildConnectionOptions (driver c) (TypeOrmHealthIndicator.options c)
  = Return opts →
  MongoClient_connect (driver c) u opts = Return (Settled t (Return client)) →
  (close client = Throw e ∧ d = 0%N)
  ∨ close client = Return (Settled d (Throw e)) →
  (t + d ≤ timer_ms (logical_or (timeout options) (Int 1000)))%N →
  run (pingCheck env key options)
  = ([MongoConnect u opts; MongoClose],
     Return (Settled (t + d) (Return (up_record key)))).
Proof.
  intros Hp Hh Hk Hu Ho Hc Hclose Ht.
  assert (run (pingDb c (logical_or (timeout options) (Int 1000)))
          = ([MongoConnect u opts; MongoClose],
             Return (Settled (t + d) (Return VUndefined)))) as E.
  { apply run_log.
    rewrite (pingDb_mongodb _ _ _ _ _ (kind_mongodb _ Hk)
               (checkMongoDBConnection_open_ok _ _ _ _ _ _ Hu Ho Hc)).
    destruct Hclose as [[-> ->]| ->]; cbn [promise_map].
    - rewrite N.add_0_r in *. by rewrite promiseTimeout_in_time.
    - by rewrite promiseTimeout_in_time. }
  by rewrite (run_pingCheck_with_handle _ key _ _ _ _ Hp Hh E).
Qed.

Lemma close_failure_ignored_witness :
  run (pingCheck Fixtures.env_no_provider "db"
         (Fixtures.with_connection
            (Fixtures.mongo_handle (Settled 5 (Return Fixtures.closed_client)))
            None))
  = ([MongoConnect "mongodb://localhost/test" (VObject []); MongoClose],
     Return (Settled (5 + 2) (Return (up_record "db")))).
Proof.
  apply (close_failure_ignored Fixtures.env_no_provider "db"
           (Fixtures.with_connection
              (Fixtures.mongo_handle (Settled 5 (Return Fixtures.closed_client)))
              None)
           (Fixtures.mongo_handle (Settled 5 (Return Fixtures.closed_client)))
           "mongodb://localhost/test" (VObject []) 5%N Fixtures.closed_client
           (Error "Topology is closed") 2%N);
    try reflexivity.
  - right. reflexivity.
  - apply N.leb_le. reflexivity.
Defined.

(** C8, as stated, fails: success is only announced after [close] has
    settled, and the whole chain is raced against the timer.  With the
    connect fulfilled after 5 ms and the close rejected 996 ms later, under
    the default budget of 1000 ms, the probe reports the timeout
    down-record, not "up". *)
Lemma slow_failing_close_reports_down :
  MongoClient_connect
    (driver (Fixtures.mongo_handle (Settled 5 (Return Fixtures.slow_closed_client))))
    "mongodb://localhost/test" (VObject [])
  = Return (Settled 5 (Return Fixtures.slow_closed_client))
  ∧ close Fixtures.slow_closed_client
    = Return (Settled 996 (Throw (Error "Topology is closed")))
  ∧ run (pingCheck Fixtures.env_no_provider "db"
           (Fixtures.with_connection
              (Fixtures.mongo_handle
                 (Settled 5 (Return Fixtures.slow_closed_client)))
              None))
    = ([MongoConnect "mongodb://localhost/test" (VObject []); MongoClose],
       Return (Settled 1000
                 (Return (down_record "db" "timeout of 1000ms exceeded"))))
  ∧ down_record "db" "timeout of 1000ms exceeded" ≠ up_record "db".
Proof.
  split; [reflexivity|]. split; [reflexivity|]. split; [reflexivity|].
  intros E.
  assert (status_of (down_record "db" "timeout of 1000ms exceeded") "db"
          = status_of (up_record "db") "db") as H by by rewrite E.
  discriminate H.
Qed.

(** [pingCheck] reads its settings through [options.connection] and
    [options.timeout || 1000] only. *)
Lemma pingCheck_ext env key o1 o2 :
  connection o1 = connection o2 →
  logical_or (timeout o1) (Int 1000) = logical_or (timeout o2) (Int 1000) →
  pingCheck env key o1 = pingCheck env key o2.
Proof. intros H1 H2. unfold pingCheck. rewrite H1, H2. reflexivity. Qed.

(** C10: when the timeout is supplied as a falsy number (+0, -0 or NaN),
    the budget [pingCheck] works with is the default 1000 and not the
    number supplied: the liveness check is the one raced against 1000 ms,
    its outcome is what gets reported, and a timeout is reported as
    "timeout of 1000ms exceeded"; a statement that never comes back is
    given up after 1000 ms.  The call is the same as one without any
    timeout.  And whatever timeout is supplied, the budget the check is
    raced against and the record names is a truthy number, never 0. *)
Theorem falsy_timeout_is_default env key options c n :
  packages_present env →
  handle env options (Some c) →
  timeout options = Some n →
  number_truthy n = false →
  (∃ cs p,
      run (pingDb c (Int 1000)) = (cs, Return p)
      ∧ run (pingCheck env key options)
        = (cs, Return (try_await p (λ _, up_record key)
                         (on_error key (Int 1000)))))
  ∧ (∀ sql,
       spec_liveness_query (type (TypeOrmHealthIndicator.options c)) = Some sql →
       query c sql = Return Pending →
       run (pingCheck env key options)
       = ([Query sql],
          Return (Settled 1000
                    (Return (down_record key "timeout of 1000ms exceeded")))))
  ∧ pingCheck env key options
    = pingCheck env key {| connection := connection options; timeout := None |}
  ∧ (∀ supplied, ∃ budget cs p,
       number_truthy budget = true
       ∧ budget ≠ Int 0
       ∧ run (pingDb c budget) = (cs, Return p)
       ∧ run (pingCheck env key
                {| connection := connection options; timeout := supplied |})
         = (cs, Return (try_await p (λ _, up_record key)
                          (on_error key budget)))).
Proof.
  intros Hp Hh Ht Hn.
  assert (logical_or (timeout options) (Int 1000) = Int 1000) as Hb.
  { rewrite Ht. by apply logical_or_falsy. }
  split; [|split; [|split]].
  - destruct (run_pingDb_total c (Int 1000)) as (cs & t & r & E).
    exists cs, (Settled t r). split; [done|].
    rewrite <- Hb in E.
    rewrite (run_pingCheck_with_handle _ key _ _ _ _ Hp Hh E).
    by rewrite Hb.
  - intros sql Hk Hq.
    assert (run (pingDb c (logical_or (timeout options) (Int 1000)))
            = ([Query sql],
               Return (Settled 1000 (Throw (PromiseTimeoutError ""))))) as E.
    { rewrite Hb. apply run_log.
      rewrite (pingDb_query _ _ _ _ Hk), Hq. reflexivity. }
    rewrite (run_pingCheck_with_handle _ key _ _ _ _ Hp Hh E).
    rewrite Hb. reflexivity.
  - apply pingCheck_ext; [reflexivity|]. by rewrite Hb.
  - intros supplied.
    set (o := {| connection := connection options; timeout := supplied |}).
    assert (handle env o (Some c)) as Hh' by exact Hh.
    destruct (run_pingDb_total c (logical_or (timeout o) (Int 1000)))
      as (cs & t & r & E).
    exists (logical_or (timeout o) (Int 1000)), cs, (Settled t r).
    split; [by apply logical_or_is_truthy|]. split.
    { intros E0.
      pose proof (logical_or_is_truthy (timeout o) (Int 1000) eq_refl) as T.
      rewrite E0 in T. discriminate. }
    split; [done|].
    by rewrite (run_pingCheck_with_handle _ key _ _ _ _ Hp Hh' E).
Qed.

Lemma falsy_timeout_is_default_witness :
  (∃ cs p,
      run (pingDb Fixtures.slowHandle (Int 1000)) = (cs, Return p)
      ∧ run (pingCheck Fixtures.env_no_provider "db"
               (Fixtures.with_connection Fixtures.slowHandle (Some (Int 0))))
        = (cs, Return (try_await p (λ _, up_record "db")
                         (on_error "db" (Int 1000)))))
  ∧ (∀ sql,
       spec_liveness_query
         (type (TypeOrmHealthIndicator.options Fixtures.slowHandle)) = Some sql →
       query Fixtures.slowHandle sql = Return Pending →
       run (pingCheck Fixtures.env_no_provider "db"
              (Fixtures.with_connection Fixtures.slowHandle (Some (Int 0))))
       = ([Query sql],
          Return (Settled 1000
                    (Return (down_record "db" "timeout of 1000ms exceeded")))))
  ∧ pingCheck Fixtures.env_no_provider "db"
      (Fixtures.with_connection Fixtures.slowHandle (Some (Int 0)))
    = pingCheck Fixtures.env_no_provider "db"
        {| connection := Some Fixtures.slowHandle; timeout := None |}
  ∧ (∀ supplied, ∃ budget cs p,
       number_truthy budget = true
       ∧ budget ≠ Int 0
       ∧ run (pingDb Fixtures.slowHandle budget) = (cs, Return p)
       ∧ run (pingCheck Fixtures.env_no_provider "db"
                {| connection := Some Fixtures.slowHandle; timeout := supplied |})
         = (cs, Return (try_await p (λ _, up_record "db")
                          (on_error "db" budget)))).
Proof.
  apply (falsy_timeout_is_default Fixtures.env_no_provider "db"
           (Fixtures.with_connection Fixtures.slowHandle (Some (Int 0)))
           Fixtures.slowHandle (Int 0)); reflexivity.
Defined.

End Probe.

(** ** Further properties of the result builder *)

Section BuilderFields.

Implicit Types (k f : string) (d : gmap string value).

Lemma spread_absorbs base d :
  dom base ⊆ dom d → spread base d = d.
Proof.
  intros H. unfold spread. apply map_eq. intros i.
  destruct (d !! i) as [v|] eqn:E.
  - by apply lookup_union_Some_l.
  - rewrite lookup_union_r by done.
    apply not_elem_of_dom. apply not_elem_of_dom in E. set_solver.
Qed.

(** X1: the additional data is merged verbatim: the detail objects of
    [up] and [down] hold every field of the data with its value, hold
    nothing but [status] beside them, and agree with the data on every
    field other than [status]. *)
Theorem additional_data_merged k d :
  ∃ du dd,
    up (check k) (Obj d) !! k = Some du
    ∧ down (check k) (Obj d) !! k = Some dd
    ∧ (∀ f v, d !! f = Some v → du !! f = Some v ∧ dd !! f = Some v)
    ∧ (∀ f, f ≠ "status" → du !! f = d !! f ∧ dd !! f = d !! f)
    ∧ dom du = {[ "status" ]} ∪ dom d
    ∧ dom dd = {[ "status" ]} ∪ dom d.
Proof.
  eexists _, _. unfold up, down; simpl.
  split; [apply lookup_singleton_eq|]. split; [apply lookup_singleton_eq|].
  split; [|split; [|split]].
  - intros f v H. split; by apply spread_lookup_src.
  - intros f Hf. unfold spread.
    split; (destruct (d !! f) as [v|] eqn:E;
      [by apply lookup_union_Some_l
      |rewrite lookup_union_r by done; by apply lookup_singleton_ne]).
  - unfold spread. rewrite dom_union_L, dom_singleton_L. apply (comm_L (∪)).
  - unfold spread. rewrite dom_union_L, dom_singleton_L. apply (comm_L (∪)).
Qed.

(** X2: the status reported by [down] is the literal "down" exactly when
    the data has no [status] field or one that already says "down"; the
    same for [up]; with a string or with no data the status is always the
    literal. *)
Theorem status_literal_iff k d s :
  (status_of (down (check k) (Obj d)) k = Some (VString "down")
   ↔ d !! "status" = None ∨ d !! "status" = Some (VString "down"))
  ∧ (status_of (up (check k) (Obj d)) k = Some (VString "up")
     ↔ d !! "status" = None ∨ d !! "status" = Some (VString "up"))
  ∧ status_of (down (check k) (Str s)) k = Some (VString "down")
  ∧ status_of (up (check k) (Str s)) k = Some (VString "up")
  ∧ status_of (down (check k) Omitted) k = Some (VString "down")
  ∧ status_of (up (check k) Omitted) k = Some (VString "up").
Proof.
  split; [|split].
  - rewrite down_status. destruct (d !! "status") as [v|]; simpl.
    + split; [intros [= ->]; by right|intros [H|H]; [done|by rewrite H]].
    + split; [by left|done].
  - rewrite up_status. destruct (d !! "status") as [v|]; simpl.
    + split; [intros [= ->]; by right|intros [H|H]; [done|by rewrite H]].
    + split; [by left|done].
  - unfold status_of, up, down; simpl. rewrite !lookup_singleton_eq.
    repeat split.
Qed.

(** X3: [up] and [down] build the same record exactly when the data
    brings a [status] of its own. *)
Theorem up_down_agree_iff k d :
  up (check k) (Obj d) = down (check k) (Obj d) ↔ is_Some (d !! "status").
Proof.
  split.
  - intros H.
    assert (status_of (up (check k) (Obj d)) k
            = status_of (down (check k) (Obj d)) k) as E by by rewrite H.
    rewrite up_status, down_status in E.
    destruct (d !! "status") as [v|]; [by eauto|]. discriminate.
  - intros H. unfold up, down; simpl. f_equal.
    assert (dom ({[ "status" := VString "up" ]} : gmap string value) ⊆ dom d
            ∧ dom ({[ "status" := VString "down" ]} : gmap string value) ⊆ dom d)
      as [Hu Hd].
    { rewrite !dom_singleton_L. apply elem_of_dom in H. set_solver. }
    by rewrite !spread_absorbs.
Qed.

End BuilderFields.

(** ** Further properties of the connectivity probe *)

Section ProbeCases.

Implicit Types (env : Env) (c : DataSource) (key : string)
  (options : TypeOrmPingCheckSettings) (s : state).

(** *** The side connection, case by case *)

Ltac enter_mongo Hu :=
  unfold mongo_url, checkMongoDBConnection, async, new_Promise, log;
  match goal with c : DataSource |- _ => destruct c as [? ? ?] end;
  simpl; intros Hu; step_M;
  destruct (url_truthy _); simpl;
  [try (injection Hu as ->) | rewrite Hu]; simpl.

Lemma checkMongoDBConnection_url_throws c s e :
  mongo_url c = Throw e →
  checkMongoDBConnection c s = (log [] s, Return (rejected e)).
Proof.
  enter_mongo Hu; [discriminate|]. by rewrite app_nil_r.
Qed.

Lemma checkMongoDBConnection_options_throw c s u e :
  mongo_url c = Return u →
  buildConnectionOptions (driver c) (options c) = Throw e →
  checkMongoDBConnection c s = (log [] s, Return (rejected e)).
Proof.
  enter_mongo Hu; intros ->; simpl; by rewrite app_nil_r.
Qed.

Lemma checkMongoDBConnection_connect_throws c s u opts e :
  mongo_url c = Return u →
  buildConnectionOptions (driver c) (options c) = Return opts →
  MongoClient_connect (driver c) u opts = Throw e →
  checkMongoDBConnection c s
  = (log [MongoConnect u opts] s, Return (rejected e)).
Proof.
  enter_mongo Hu; intros -> Hc; simpl; by rewrite Hc.
Qed.

Lemma checkMongoDBConnection_connect_pending c s u opts :
  mongo_url c = Return u →
  buildConnectionOptions (driver c) (options c) = Return opts →
  MongoClient_connect (driver c) u opts = Return Pending →
  checkMongoDBConnection c s = (log [MongoConnect u opts] s, Return Pending).
Proof.
  enter_mongo Hu; intros -> Hc; simpl; by rewrite Hc.
Qed.

Lemma run_pingDb_mongodb c timeout cs p :
  type (options c) = "mongodb" →
  checkMongoDBConnection c initial = (log cs initial, Return p) →
  run (pingDb c timeout)
  = (cs, Return (promiseTimeout timeout (promise_map (λ _, VUndefined) p))).
Proof.
  intros Hk Hp. apply run_log.
  by apply pingDb_mongodb; [apply kind_mongodb|].
Qed.

Lemma run_pingDb_query c timeout sql :
  spec_liveness_query (type (options c)) = Some sql →
  run (pingDb c timeout)
  = ([Query sql],
     Return match query c sql with
            | Throw e => rejected e
            | Return p => promiseTimeout timeout p
            end).
Proof. intros H. apply run_log. by apply pingDb_query. Qed.

Lemma url_truthy_Some u : u ≠ "" → url_truthy (Some u) = Some u.
Proof. by destruct u. Qed.

(** Whatever the native connect does, it is the first call made. *)
Lemma checkMongoDBConnection_connects c s u opts :
  mongo_url c = Return u →
  buildConnectionOptions (driver c) (options c) = Return opts →
  ∃ p, checkMongoDBConnection c s = (log [MongoConnect u opts] s, Return p)
       ∨ checkMongoDBConnection c s
         = (log [MongoConnect u opts; MongoClose] s, Return p).
Proof.
  intros Hu Ho.
  destruct (MongoClient_connect (driver c) u opts) as [e|[|t [e|client]]] eqn:Hc.
  - eexists. left. by apply checkMongoDBConnection_connect_throws.
  - eexists. left. by apply checkMongoDBConnection_connect_pending.
  - eexists. left. by apply checkMongoDBConnection_open_rejected.
  - eexists. right. by apply checkMongoDBConnection_open_ok.
Qed.

Lemma checkMongoDBConnection_single_dispatch c s :
  ∃ cs p, checkMongoDBConnection c s = (log cs s, Return p)
          ∧ single_dispatch cs = true.
Proof.
  destruct (mongo_url c) as [e|u] eqn:Hu.
  { eexists [], _. split; [by apply checkMongoDBConnection_url_throws|done]. }
  destruct (buildConnectionOptions (driver c) (options c)) as [e|opts] eqn:Ho.
  { eexists [], _. split; [by eapply checkMongoDBConnection_options_throw|done]. }
  destruct (checkMongoDBConnection_connects c s u opts Hu Ho) as [p [H|H]];
    eexists _, p; (split; [exact H|done]).
Qed.

(** *** Looking the handle up *)

(** X4: [getContextConnection] throws only when the utility module fails
    to load, and then with that very error; it answers with a handle
    exactly when the token is obtained and [moduleRef.get] returns one.
    Every other failure ends as [null]. *)
Theorem getContextConnection_outcomes env :
  (∀ e, getContextConnection env = Throw e
        ↔ require_typeorm_utils env = Throw e)
  ∧ (∀ c, getContextConnection env = Return (Some c)
          ↔ ∃ f token, require_typeorm_utils env = Return f
                       ∧ f tt = Return token
                       ∧ moduleRef_get env token = Return (Some c)).
Proof.
  unfold getContextConnection, mbind, completion_bind, try_catch.
  destruct (require_typeorm_utils env) as [e0|f]; split.
  - intros e. split; intros [= ->]; done.
  - intros c. split; [done|]. by intros (f & token & [=] & _).
  - intros e. destruct (f tt) as [e'|token]; [done|].
    by destruct (moduleRef_get env token).
  - intros c. destruct (f tt) as [e'|token] eqn:Ht.
    + split; [done|]. intros (f' & token & [= <-] & Ht' & _). congruence.
    + destruct (moduleRef_get env token) as [e'|oc] eqn:Hg.
      * split; [done|]. intros (f' & token' & [= <-] & Ht' & Hg'). congruence.
      * split.
        -- intros [= ->]. by exists f, token.
        -- intros (f' & token' & [= <-] & Ht' & Hg'). congruence.
Qed.

(** X5: when a connection is passed in, the application context is not
    consulted: two environments with the same package check give the same
    [pingCheck], whatever their module loader and container do. *)
Theorem supplied_connection_skips_context env env' key options c :
  connection options = Some c →
  checkDependantPackages env = checkDependantPackages env' →
  pingCheck env key options = pingCheck env' key options.
Proof. intros Hc Hp. unfold pingCheck. by rewrite Hc, Hp. Qed.

Lemma supplied_connection_skips_context_witness :
  pingCheck Fixtures.env_no_provider "db"
    (Fixtures.with_connection Fixtures.brokenHandle None)
  = pingCheck Fixtures.env_no_utils "db"
      (Fixtures.with_connection Fixtures.brokenHandle None).
Proof.
  apply (supplied_connection_skips_context Fixtures.env_no_provider
           Fixtures.env_no_utils "db"
           (Fixtures.with_connection Fixtures.brokenHandle None)
           Fixtures.brokenHandle); reflexivity.
Defined.

(** X6: a handle found in the application context is used exactly as one
    passed in through the settings. *)
Theorem context_handle_as_supplied env key c t :
  getContextConnection env = Return (Some c) →
  pingCheck env key {| connection := None; timeout := t |}
  = pingCheck env key {| connection := Some c; timeout := t |}.
Proof. intros H. unfold pingCheck; cbn [connection]. by rewrite H. Qed.

Lemma context_handle_as_supplied_witness :
  pingCheck (Fixtures.env_with_provider Fixtures.slowHandle) "db"
    {| connection := None; timeout := Some (Int 50) |}
  = pingCheck (Fixtures.env_with_provider Fixtures.slowHandle) "db"
      {| connection := Some Fixtures.slowHandle; timeout := Some (Int 50) |}.
Proof.
  apply (context_handle_as_supplied
           (Fixtures.env_with_provider Fixtures.slowHandle) "db"
           Fixtures.slowHandle (Some (Int 50))).
  reflexivity.
Defined.

(** *** Relational handles *)

(** X7: when the statement is answered before the timer fires, the probe
    reports "up" at that moment, with [status] as the only field: what the
    statement returned is dropped, and that one statement is all the handle
    has seen. *)
Theorem answered_query_reports_up env key options c sql t v :
  packages_present env →
  handle env options (Some c) →
  spec_liveness_query (type (TypeOrmHealthIndicator.options c)) = Some sql →
  query c sql = Return (Settled t (Return v)) →
  (t ≤ timer_ms (logical_or (timeout options) (Int 1000)))%N →
  run (pingCheck env key options)
  = ([Query sql],
     Return (Settled t (Return {[ key := {[ "status" := VString "up" ]} ]}))).
Proof.
  intros Hp Hh Hk Hq Ht.
  rewrite (run_pingCheck_with_handle _ key _ _ [Query sql]
             (Settled t (Return v)) Hp Hh); [done|].
  rewrite (run_pingDb_query _ _ _ Hk), Hq.
  by rewrite promiseTimeout_in_time.
Qed.

Lemma answered_query_reports_up_witness :
  run (pingCheck Fixtures.env_no_provider "db"
         (Fixtures.with_connection (Fixtures.sql_handle "sap" 7) (Some (Int 20))))
  = ([Query "SELECT now() FROM dummy"],
     Return (Settled 7 (Return {[ "db" := {[ "status" := VString "up" ]} ]}))).
Proof.
  apply (answered_query_reports_up Fixtures.env_no_provider "db"
           (Fixtures.with_connection (Fixtures.sql_handle "sap" 7) (Some (Int 20)))
           (Fixtures.sql_handle "sap" 7) "SELECT now() FROM dummy" 7%N
           (VObject [])); try reflexivity.
  apply N.leb_le. reflexivity.
Defined.

(** X8: a [query] that throws at the call, or is rejected before the timer
    fires, with an ordinary error is not propagated: the probe answers
    (at once when the call threw) with "{key} is not available", and the
    error's own message appears nowhere in the record. *)
Theorem failed_query_reports_unavailable env key options c sql t m :
  packages_present env →
  handle env options (Some c) →
  spec_liveness_query (type (TypeOrmHealthIndicator.options c)) = Some sql →
  (query c sql = Throw (Error m) ∧ t = 0%N)
  ∨ (query c sql = Return (Settled t (Throw (Error m)))
     ∧ (t ≤ timer_ms (logical_or (timeout options) (Int 1000)))%N) →
  run (pingCheck env key options)
  = ([Query sql],
     Return (Settled t (Return
       {[ key := {[ "status" := VString "down";
                    "message" := VString (key +:+ " is not available") ]} ]}))).
Proof.
  intros Hp Hh Hk Hq.
  rewrite (run_pingCheck_with_handle _ key _ _ [Query sql]
             (Settled t (Throw (Error m))) Hp Hh); [done|].
  rewrite (run_pingDb_query _ _ _ Hk).
  destruct Hq as [[-> ->]|[-> Ht]]; [done|].
  by rewrite promiseTimeout_in_time.
Qed.

Lemma failed_query_reports_unavailable_witness :
  run (pingCheck Fixtures.env_no_provider "db"
         (Fixtures.with_connection Fixtures.throwing_handle None))
  = ([Query "SELECT 1"],
     Return (Settled 0 (Return
       {[ "db" := {[ "status" := VString "down";
                     "message" := VString "db is not available" ]} ]}))).
Proof.
  apply (failed_query_reports_unavailable Fixtures.env_no_provider "db"
           (Fixtures.with_connection Fixtures.throwing_handle None)
           Fixtures.throwing_handle "SELECT 1" 0%N
           "Connection is not established"); try reflexivity.
  left. split; reflexivity.
Defined.

(** X9: which part of the handle a probe touches depends on the kind
    alone: for "mongodb" the [query] method plays no role, for every other
    kind the driver plays none. *)
Theorem untouched_part_of_handle c d' q' timeout :
  pingDb c timeout
  = pingDb (if String.eqb (type (options c)) "mongodb"
            then {| options := options c; driver := driver c; query := q' |}
            else {| options := options c; driver := d'; query := query c |})
      timeout.
Proof.
  unfold pingDb. destruct (String.eqb (type (options c)) "mongodb") eqn:E;
    cbn [options type]; rewrite E; reflexivity.
Qed.

(** *** MongoDB handles *)

(** X10: the native connect is called with the configured url when there
    is a non-empty one, and with the url built by the driver when the
    configured one is absent or the empty string; it is the first call
    made. *)
Theorem side_connection_url c opts :
  buildConnectionOptions (driver c) (options c) = Return opts →
  (∀ u, url (options c) = Some u → u ≠ "" →
        head (run (checkMongoDBConnection c)).1 = Some (MongoConnect u opts))
  ∧ (∀ u, url (options c) = None ∨ url (options c) = Some "" →
          buildConnectionUrl (driver c) (options c) = Return u →
          head (run (checkMongoDBConnection c)).1 = Some (MongoConnect u opts)).
Proof.
  intros Ho.
  assert (∀ u, mongo_url c = Return u →
            head (run (checkMongoDBConnection c)).1 = Some (MongoConnect u opts))
    as K.
  { intros u Hu.
    destruct (checkMongoDBConnection_connects c initial u opts Hu Ho)
      as [p [H|H]]; by rewrite (run_log _ _ _ H). }
  split.
  - intros u Hu Hne. apply K. unfold mongo_url.
    by rewrite Hu, url_truthy_Some.
  - intros u Hu Hb. apply K. unfold mongo_url.
    by destruct Hu as [-> | ->].
Qed.

Lemma side_connection_url_witness :
  (∀ u, url (options (Fixtures.mongo_handle_with (Some "") (Return Pending)))
        = Some u → u ≠ "" →
        head (run (checkMongoDBConnection
                     (Fixtures.mongo_handle_with (Some "") (Return Pending)))).1
        = Some (MongoConnect u (VObject [])))
  ∧ (∀ u, url (options (Fixtures.mongo_handle_with (Some "") (Return Pending)))
          = None
          ∨ url (options (Fixtures.mongo_handle_with (Some "") (Return Pending)))
            = Some "" →
          buildConnectionUrl
            (driver (Fixtures.mongo_handle_with (Some "") (Return Pending)))
            (options (Fixtures.mongo_handle_with (Some "") (Return Pending)))
          = Return u →
          head (run (checkMongoDBConnection
                       (Fixtures.mongo_handle_with (Some "") (Return Pending)))).1
          = Some (MongoConnect u (VObject []))).
Proof.
  apply (side_connection_url
           (Fixtures.mongo_handle_with (Some "") (Return Pending)) (VObject [])).
  reflexivity.
Defined.

Example empty_url_is_rebuilt :
  run (checkMongoDBConnection
         (Fixtures.mongo_handle_with (Some "") (Return Pending)))
  = ([MongoConnect "mongodb://built" (VObject [])], Return Pending).
Proof. reflexivity. Qed.

(** X11: when the driver fails to build the url or the connection
    options, no connection is attempted, and the error is not turned into
    a [MongoConnectionError]: for an ordinary error the probe answers at
    once with "{key} is not available". *)
Theorem side_connection_setup_failure env key options c m :
  packages_present env →
  handle env options (Some c) →
  type (TypeOrmHealthIndicator.options c) = "mongodb" →
  mongo_url c = Throw (Error m)
  ∨ (∃ u, mongo_url c = Return u
          ∧ buildConnectionOptions (driver c) (TypeOrmHealthIndicator.options c)
            = Throw (Error m)) →
  run (checkMongoDBConnection c) = ([], Return (rejected (Error m)))
  ∧ run (pingCheck env key options)
    = ([], Return (resolved (down_record key (key +:+ " is not available")))).
Proof.
  intros Hp Hh Hk Hfail.
  assert (checkMongoDBConnection c initial
          = (log [] initial, Return (rejected (Error m)))) as E.
  { destruct Hfail as [Hu|(u & Hu & Ho)].
    - by apply checkMongoDBConnection_url_throws.
    - by eapply checkMongoDBConnection_options_throw. }
  split; [by apply run_log|].
  rewrite (run_pingCheck_with_handle _ key _ _ [] (rejected (Error m)) Hp Hh);
    [done|].
  rewrite (run_pingDb_mongodb _ _ _ _ Hk E). cbn [rejected promise_map].
  rewrite promiseTimeout_in_time; [done|apply N.le_0_l].
Qed.

Lemma side_connection_setup_failure_witness :
  run (checkMongoDBConnection Fixtures.mongo_handle_bad_options)
  = ([], Return (rejected (Error "invalid replica set")))
  ∧ run (pingCheck Fixtures.env_no_provider "db"
           (Fixtures.with_connection Fixtures.mongo_handle_bad_options None))
    = ([], Return (resolved (down_record "db" "db is not available"))).
Proof.
  apply (side_connection_setup_failure Fixtures.env_no_provider "db"
           (Fixtures.with_connection Fixtures.mongo_handle_bad_options None)
           Fixtures.mongo_handle_bad_options "invalid replica set");
    try reflexivity.
  right. exists "mongodb://localhost/test". split; reflexivity.
Defined.

(** X12: only a rejection of the promise returned by the native connect is
    wrapped.  When the call to connect itself throws an ordinary error,
    the side connection is rejected with that error as it is, nothing is
    closed, and the probe answers at once with "{key} is not available". *)
Theorem connect_throw_not_wrapped env key options c u opts m :
  packages_present env →
  handle env options (Some c) →
  type (TypeOrmHealthIndicator.options c) = "mongodb" →
  mongo_url c = Return u →
  buildConnectionOptions (driver c) (TypeOrmHealthIndicator.options c)
  = Return opts →
  MongoClient_connect (driver c) u opts = Throw (Error m) →
  run (checkMongoDBConnection c)
  = ([MongoConnect u opts], Return (rejected (Error m)))
  ∧ run (pingCheck env key options)
    = ([MongoConnect u opts],
       Return (resolved (down_record key (key +:+ " is not available")))).
Proof.
  intros Hp Hh Hk Hu Ho Hc.
  pose proof (checkMongoDBConnection_connect_throws c initial u opts (Error m)
                Hu Ho Hc) as E.
  split; [by apply run_log|].
  rewrite (run_pingCheck_with_handle _ key _ _ [MongoConnect u opts]
             (rejected (Error m)) Hp Hh); [done|].
  rewrite (run_pingDb_mongodb _ _ _ _ Hk E). cbn [rejected promise_map].
  rewrite promiseTimeout_in_time; [done|apply N.le_0_l].
Qed.

Lemma connect_throw_not_wrapped_witness :
  run (checkMongoDBConnection
         (Fixtures.mongo_handle_with None (Throw (Error "MongoParseError"))))
  = ([MongoConnect "mongodb://built" (VObject [])],
     Return (rejected (Error "MongoParseError")))
  ∧ run (pingCheck Fixtures.env_no_provider "db"
           (Fixtures.with_connection
              (Fixtures.mongo_handle_with None (Throw (Error "MongoParseError")))
              None))
    = ([MongoConnect "mongodb://built" (VObject [])],
       Return (resolved (down_record "db" "db is not available"))).
Proof.
  apply (connect_throw_not_wrapped Fixtures.env_no_provider "db"
           (Fixtures.with_connection
              (Fixtures.mongo_handle_with None (Throw (Error "MongoParseError")))
              None)
           (Fixtures.mongo_handle_with None (Throw (Error "MongoParseError")))
           "mongodb://built" (VObject []) "MongoParseError");
    reflexivity.
Defined.

(** X13: the side connection is closed exactly when the promise of the
    native connect was fulfilled: never after a failed or unanswered
    connect, always after a successful one. *)
Theorem close_iff_connected c u opts :
  mongo_url c = Return u →
  buildConnectionOptions (driver c) (options c) = Return opts →
  MongoClose ∈ (run (checkMongoDBConnection c)).1
  ↔ ∃ t client,
      MongoClient_connect (driver c) u opts = Return (Settled t (Return client)).
Proof.
  intros Hu Ho.
  destruct (MongoClient_connect (driver c) u opts) as [e|[|t [e|client]]] eqn:Hc.
  - rewrite (run_log _ _ _
               (checkMongoDBConnection_connect_throws c initial u opts e Hu Ho Hc)).
    split; [|by intros (? & ? & ?)].
    rewrite list_elem_of_In; simpl; intuition discriminate.
  - rewrite (run_log _ _ _
               (checkMongoDBConnection_connect_pending c initial u opts Hu Ho Hc)).
    split; [|by intros (? & ? & ?)].
    rewrite list_elem_of_In; simpl; intuition discriminate.
  - rewrite (run_log _ _ _
               (checkMongoDBConnection_open_rejected c initial u opts t e Hu Ho Hc)).
    split; [|by intros (? & ? & ?)].
    rewrite list_elem_of_In; simpl; intuition discriminate.
  - rewrite (run_log _ _ _
               (checkMongoDBConnection_open_ok c initial u opts t client Hu Ho Hc)).
    split; [by eauto|]. intros _.
    rewrite list_elem_of_In; simpl; auto.
Qed.

Lemma close_iff_connected_witness :
  MongoClose ∈ (run (checkMongoDBConnection
                       (Fixtures.mongo_handle
                          (Settled 5 (Return Fixtures.closed_client))))).1
  ↔ ∃ t client,
      MongoClient_connect
        (driver (Fixtures.mongo_handle (Settled 5 (Return Fixtures.closed_client))))
        "mongodb://localhost/test" (VObject [])
      = Return (Settled t (Return client)).
Proof.
  apply (close_iff_connected
           (Fixtures.mongo_handle (Settled 5 (Return Fixtures.closed_client)))
           "mongodb://localhost/test" (VObject [])); reflexivity.
Defined.

(** X14: success is not reported before [close] has settled.  After a
    successful connect, a [close] that never comes back leaves the side
    connection pending for ever, and the probe answers, when the timer
    fires, with the timeout record although the connection was
    established. *)
Theorem hanging_close_times_out env key options c u opts t client :
  packages_present env →
  handle env options (Some c) →
  type (TypeOrmHealthIndicator.options c) = "mongodb" →
  mongo_url c = Return u →
  buildConnectionOptions (driver c) (TypeOrmHealthIndicator.options c)
  = Return opts →
  MongoClient_connect (driver c) u opts = Return (Settled t (Return client)) →
  close client = Return Pending →
  run (checkMongoDBConnection c)
  = ([MongoConnect u opts; MongoClose], Return Pending)
  ∧ run (pingCheck env key options)
    = ([MongoConnect u opts; MongoClose],
       Return (Settled (timer_ms (logical_or (timeout options) (Int 1000)))
                 (Return (down_record key
                    ("timeout of "
                     +:+ number_toString (logical_or (timeout options) (Int 1000))
                     +:+ "ms exceeded"))))).
Proof.
  intros Hp Hh Hk Hu Ho Hc Hclose.
  pose proof (checkMongoDBConnection_open_ok c initial u opts t client Hu Ho Hc)
    as E. rewrite Hclose in E.
  split; [by apply run_log|].
  rewrite (run_pingCheck_with_handle _ key _ _ [MongoConnect u opts; MongoClose]
             (Settled (timer_ms (logical_or (timeout options) (Int 1000)))
                (Throw (PromiseTimeoutError ""))) Hp Hh); [done|].
  by rewrite (run_pingDb_mongodb _ _ _ _ Hk E).
Qed.

Lemma hanging_close_times_out_witness :
  run (checkMongoDBConnection
         (Fixtures.mongo_handle (Settled 5 (Return Fixtures.hanging_client))))
  = ([MongoConnect "mongodb://localhost/test" (VObject []); MongoClose],
     Return Pending)
  ∧ run (pingCheck Fixtures.env_no_provider "db"
           (Fixtures.with_connection
              (Fixtures.mongo_handle (Settled 5 (Return Fixtures.hanging_client)))
              (Some (Int 300))))
    = ([MongoConnect "mongodb://localhost/test" (VObject []); MongoClose],
       Return (Settled 300
                 (Return (down_record "db" "timeout of 300ms exceeded")))).
Proof.
  apply (hanging_close_times_out Fixtures.env_no_provider "db"
           (Fixtures.with_connection
              (Fixtures.mongo_handle (Settled 5 (Return Fixtures.hanging_client)))
              (Some (Int 300)))
           (Fixtures.mongo_handle (Settled 5 (Return Fixtures.hanging_client)))
           "mongodb://localhost/test" (VObject []) 5%N Fixtures.hanging_client);
    reflexivity.
Defined.

(** *** Every call *)

Lemma pingDb_single_dispatch c timeout :
  ∃ cs p, run (pingDb c timeout) = (cs, Return p) ∧ single_dispatch cs = true.
Proof.
  destruct (spec_liveness_query (type (options c))) as [sql|] eqn:E.
  - exists [Query sql]. eexists. by rewrite (run_pingDb_query _ _ _ E).
  - destruct (checkMongoDBConnection_single_dispatch c initial)
      as (cs & p & Hp & Hs).
    exists cs. eexists. split; [|exact Hs].
    apply run_log. by apply pingDb_mongodb.
Qed.

(** The ways a call to [pingCheck] can go. *)
Lemma pingCheck_cases env key options :
  (∃ e, run (pingCheck env key options) = ([], Return (rejected e)))
  ∨ run (pingCheck env key options)
    = ([], Return (resolved (down_record key
             "Connection provider not found in application context")))
  ∨ (∃ c cs p,
       run (pingDb c (logical_or (timeout options) (Int 1000))) = (cs, Return p)
       ∧ single_dispatch cs = true
       ∧ run (pingCheck env key options)
         = (cs, Return (try_await p (λ _, up_record key)
                          (on_error key (logical_or (timeout options) (Int 1000)))))).
Proof.
  destruct (checkDependantPackages env) as [e|[]] eqn:Hp.
  { left. exists e. unfold run, pingCheck, async. step_M. by rewrite Hp. }
  assert ((∃ e, connection options = None ∧ getContextConnection env = Throw e)
          ∨ ∃ oc, handle env options oc) as [(e & Hc & Hg)|[[c|] Hh]].
  { unfold handle. destruct (connection options) as [c|]; [by eauto|].
    destruct (getContextConnection env) as [e|oc]; eauto. }
  - left. exists e. unfold run, pingCheck, async. step_M.
    by rewrite Hp, Hc, Hg.
  - right. right.
    destruct (pingDb_single_dispatch c (logical_or (timeout options) (Int 1000)))
      as (cs & p & E & Hs).
    exists c, cs, p. repeat split; [done..|].
    by apply (run_pingCheck_with_handle _ _ _ c).
  - right. left. by apply run_pingCheck_no_handle.
Qed.

Lemma on_error_down key timeout err :
  ∃ msg, on_error key timeout err = down_record key msg.
Proof. destruct err; by eexists. Qed.

(** X15: whatever the handle does, a record handed back by [pingCheck] is
    the bare up-record for the key or a down-record for the key carrying a
    message: its [status] is always "up" or "down". *)
Theorem pingCheck_record_shape env key options cs t r :
  run (pingCheck env key options) = (cs, Return (Settled t (Return r))) →
  r = {[ key := {[ "status" := VString "up" ]} ]}
  ∨ ∃ msg, r = {[ key := {[ "status" := VString "down";
                            "message" := VString msg ]} ]}.
Proof.
  intros H.
  destruct (pingCheck_cases env key options)
    as [[e E]|[E|(c & cs' & p & _ & _ & E)]]; rewrite E in H.
  - discriminate.
  - injection H as _ _ <-. right. by eexists.
  - destruct p as [|t' [e|v]]; simpl in H; [discriminate| |].
    + injection H as _ _ <-. right.
      destruct (on_error_down key (logical_or (timeout options) (Int 1000)) e)
        as [msg ->]. by exists msg.
    + injection H as _ _ <-. by left.
Qed.

Lemma pingCheck_record_shape_witness :
  down_record "db" "db is not available" = {[ "db" := {[ "status" := VString "up" ]} ]}
  ∨ ∃ msg, down_record "db" "db is not available"
           = {[ "db" := {[ "status" := VString "down";
                           "message" := VString msg ]} ]}.
Proof.
  apply (pingCheck_record_shape Fixtures.env_no_provider "db"
           (Fixtures.with_connection Fixtures.brokenHandle None)
           [Query "SELECT 1"] 3%N).
  reflexivity.
Defined.

(** X16: one call to [pingCheck] dispatches at most once: the handle sees
    nothing, or a single statement, or a single native connect followed by
    at most one close.  Nothing is retried. *)
Theorem pingCheck_single_dispatch env key options :
  single_dispatch (run (pingCheck env key options)).1 = true.
Proof.
  destruct (pingCheck_cases env key options)
    as [[e E]|[E|(c & cs' & p & _ & Hs & E)]]; by rewrite E.
Qed.

End ProbeCases.
